(** * EduTrackers: the row-level-security data layer and its helpers

    A shallow embedding of the Supabase migrations under
    [supabase/migrations/] (tables, row-level-security policies, the
    [is_teacher] security-definer lookup and the [handle_new_user] signup
    trigger) and of the pure helpers [getPercentage] and [getGrade] of
    [src/components/Results.tsx] and [handlePayment] of
    [src/components/Payments.tsx].

    Policies are kept as data, literally as the migrations write them, and a
    small evaluator follows what PostgreSQL does with them: the rewriter
    first expands the policies of the queried relation and of every relation
    a policy subquery reads (raising "infinite recursion detected in policy"
    when a relation is re-entered), then the executor filters rows with the
    permissive policies OR-ed together. *)

From Stdlib Require Import List String Bool Arith Lia ZArith QArith.
Import ListNotations.
Open Scope nat_scope.
Open Scope bool_scope.

(** ** Data model (migration 20251123125930 and 20251224134008) *)

(** Identifiers are opaque UUIDs. *)
Definition uuid := nat.

(** [CREATE TYPE user_role AS ENUM ('student', 'teacher')] *)
Inductive user_role := student | teacher.

Definition user_role_eqb (a b : user_role) : bool :=
  match a, b with
  | student, student | teacher, teacher => true
  | _, _ => false
  end.

(** The text-to-enum cast [s::user_role]: fails on any other label. *)
Definition user_role_of_text (s : string) : option user_role :=
  if String.eqb s "student" then Some student
  else if String.eqb s "teacher" then Some teacher
  else None.

Inductive table :=
  | profiles | assignments | assignment_submissions
  | results | payments | announcements.

Definition table_eqb (a b : table) : bool :=
  match a, b with
  | profiles, profiles | assignments, assignments
  | assignment_submissions, assignment_submissions
  | results, results | payments, payments
  | announcements, announcements => true
  | _, _ => false
  end.

Definition table_name (t : table) : string :=
  match t with
  | profiles => "profiles"
  | assignments => "assignments"
  | assignment_submissions => "assignment_submissions"
  | results => "results"
  | payments => "payments"
  | announcements => "announcements"
  end.

(** Timestamps with [DEFAULT NOW()] (created_at, updated_at, submitted_at)
    are not part of the model; [NUMERIC] is [Q], [DATE]/[TIMESTAMPTZ] values
    the client writes are strings, nullable columns are options. *)
Record profile := mkProfile {
  p_id : uuid;
  p_email : string;
  p_full_name : string;
  p_role : user_role;
  p_roll_number : option string;
  p_course : option string;
  p_department : option string;
  p_phone : option string }.

Record assignment := mkAssignment {
  a_id : uuid;
  a_teacher_id : uuid;
  a_title : string;
  a_description : option string;
  a_file_url : option string;
  a_file_name : option string;
  a_due_date : option string;
  a_course : option string }.

Record submission := mkSubmission {
  s_id : uuid;
  s_assignment_id : uuid;
  s_student_id : uuid;
  s_file_url : option string;
  s_file_name : option string;
  s_status : option string;
  s_grade : option Q;
  s_feedback : option string }.

Record result := mkResult {
  r_id : uuid;
  r_student_id : uuid;
  r_teacher_id : uuid;
  r_exam_type : string;
  r_subject : string;
  r_marks_obtained : Q;
  r_total_marks : Q;
  r_exam_date : string;
  r_remarks : option string }.

Record payment := mkPayment {
  pay_id : uuid;
  pay_student_id : uuid;
  pay_amount : Q;
  pay_payment_type : string;
  pay_status : option string;
  pay_due_date : string;
  pay_paid_date : option string;
  pay_semester : option string }.

Record announcement := mkAnnouncement {
  an_id : uuid;
  an_teacher_id : uuid;
  an_title : string;
  an_message : string }.

(** A stored row, tagged with its relation. *)
Inductive row :=
  | RProfile (p : profile)
  | RAssignment (a : assignment)
  | RSubmission (s : submission)
  | RResult (x : result)
  | RPayment (x : payment)
  | RAnnouncement (x : announcement).

Definition row_table (r : row) : table :=
  match r with
  | RProfile _ => profiles
  | RAssignment _ => assignments
  | RSubmission _ => assignment_submissions
  | RResult _ => results
  | RPayment _ => payments
  | RAnnouncement _ => announcements
  end.

Definition row_id (r : row) : uuid :=
  match r with
  | RProfile p => p_id p
  | RAssignment a => a_id a
  | RSubmission s => s_id s
  | RResult x => r_id x
  | RPayment x => pay_id x
  | RAnnouncement x => an_id x
  end.

(** The uuid columns the policies mention. *)
Inductive column := id_col | teacher_id_col | student_id_col.

Definition row_col (r : row) (c : column) : option uuid :=
  match c, r with
  | id_col, _ => Some (row_id r)
  | teacher_id_col, RAssignment a => Some (a_teacher_id a)
  | teacher_id_col, RResult x => Some (r_teacher_id x)
  | teacher_id_col, RAnnouncement x => Some (an_teacher_id x)
  | student_id_col, RSubmission s => Some (s_student_id s)
  | student_id_col, RResult x => Some (r_student_id x)
  | student_id_col, RPayment x => Some (pay_student_id x)
  | _, _ => None
  end.

(** [auth.users]: the id, the email and [raw_user_meta_data], whose
    [->>] lookups give the text of a key. *)
Record auth_user := mkUser {
  u_id : uuid;
  u_email : string;
  u_raw_user_meta_data : list (string * string) }.

Record db := mkDb {
  db_users : list auth_user;
  db_rows : list row }.

Definition rows (d : db) (t : table) : list row :=
  filter (fun r => table_eqb (row_table r) t) (db_rows d).

Inductive db_error :=
  | ERlsViolation (t : table)       (* new row violates row-level security policy *)
  | EUniqueViolation (c : string)   (* duplicate key value violates unique constraint *)
  | EFkViolation (c : string)       (* insert violates foreign key constraint *)
  | EPolicyRecursion (t : table)    (* infinite recursion detected in policy *)
  | EInvalidEnum (s : string).     (* invalid input value for enum user_role *)

Inductive outcome (A : Type) :=
  | Ok (a : A)
  | Err (e : db_error).
Arguments Ok {A} a.
Arguments Err {A} e.

(** ** The security-definer lookup (migration 20251224134008, lines 39-50)

    [SELECT EXISTS (SELECT 1 FROM profiles WHERE id = user_id AND
    role = 'teacher')], run as the function owner: it reads every profile
    row, no policy is applied, and it returns a value without writing. *)
Definition teacher_row (user_id : uuid) (r : row) : bool :=
  match r with
  | RProfile p => (p_id p =? user_id) && user_role_eqb (p_role p) teacher
  | _ => false
  end.

Definition is_teacher (d : db) (user_id : uuid) : bool :=
  existsb (teacher_row user_id) (db_rows d).

(** ** Policy expressions *)

Inductive pexpr :=
  | PTrue                   (* true *)
  | PUidEq (c : column)     (* auth.uid() = c, c = auth.uid() *)
  | PExistsTeacherProfile   (* EXISTS (SELECT 1 FROM profiles
                               WHERE profiles.id = auth.uid()
                               AND profiles.role = 'teacher') *)
  | PIsTeacherUid.          (* is_teacher(auth.uid()) *)

Inductive pcmd := ForSelect | ForInsert | ForUpdate | ForDelete | ForAll.
Inductive cmd := CSelect | CInsert | CUpdate | CDelete.

Record policy := mkPolicy {
  pol_name : string;
  pol_table : table;
  pol_cmd : pcmd;
  pol_using : option pexpr;
  pol_check : option pexpr }.

Definition pcmd_applies (pc : pcmd) (c : cmd) : bool :=
  match pc, c with
  | ForAll, _ => true
  | ForSelect, CSelect | ForInsert, CInsert
  | ForUpdate, CUpdate | ForDelete, CDelete => true
  | _, _ => false
  end.

Definition applicable (pols : list policy) (t : table) (c : cmd) : list policy :=
  filter (fun p => table_eqb (pol_table p) t && pcmd_applies (pol_cmd p) c) pols.

(** Evaluation of a policy expression for requester [uid] on row [r];
    [scan] is the result of the subquery over [profiles], i.e. the profile
    rows the requester may see (the subquery runs under the requester's
    policies). *)
Definition eval_pexpr (scan : list row) (d : db) (uid : uuid) (r : row)
    (e : pexpr) : bool :=
  match e with
  | PTrue => true
  | PUidEq c => match row_col r c with Some v => v =? uid | None => false end
  | PExistsTeacherProfile => existsb (teacher_row uid) scan
  | PIsTeacherUid => is_teacher d uid
  end.

Definition pol_using_ok (scan : list row) (d : db) (uid : uuid) (r : row)
    (p : policy) : bool :=
  match pol_using p with
  | Some e => eval_pexpr scan d uid r e
  | None => false
  end.

(** A policy without [WITH CHECK] checks new rows with its [USING]. *)
Definition pol_check_ok (scan : list row) (d : db) (uid : uuid) (r : row)
    (p : policy) : bool :=
  match pol_check p with
  | Some e => eval_pexpr scan d uid r e
  | None => pol_using_ok scan d uid r p
  end.

(** Relations read by subqueries of a policy (a function call is not
    expanded by the rewriter). *)
Definition pexpr_subqueries (e : pexpr) : list table :=
  match e with
  | PExistsTeacherProfile => [profiles]
  | _ => []
  end.

Definition opt_subqueries (o : option pexpr) : list table :=
  match o with Some e => pexpr_subqueries e | None => [] end.

Definition policy_subqueries (p : policy) : list table :=
  opt_subqueries (pol_using p) ++ opt_subqueries (pol_check p).

Fixpoint first_some {A B : Type} (f : A -> option B) (l : list A) : option B :=
  match l with
  | [] => None
  | x :: l' => match f x with Some b => Some b | None => first_some f l' end
  end.

(** The rewriter's expansion of the policies of [t] for commands [cs]:
    [Some t'] when the expansion re-enters relation [t'] (the relations
    being expanded are in [active]), [None] when it succeeds. *)
Fixpoint recursion_in (fuel : nat) (pols : list policy) (active : list table)
    (t : table) (cs : list cmd) : option table :=
  match fuel with
  | O => Some t
  | S f =>
      first_some
        (fun p =>
           first_some
             (fun t' =>
                if existsb (table_eqb t') (t :: active) then Some t'
                else recursion_in f pols (t :: active) t' [CSelect])
             (policy_subqueries p))
        (flat_map (applicable pols t) cs)
  end.

(** There are six relations, so seven nested expansions suffice. *)
Definition depth : nat := 7.

(** The rows of [t] the requester sees: those admitted by some permissive
    [SELECT] policy. *)
Fixpoint visible (fuel : nat) (pols : list policy) (d : db) (uid : uuid)
    (t : table) : list row :=
  match fuel with
  | O => []
  | S f =>
      let scan := visible f pols d uid profiles in
      filter (fun r => existsb (pol_using_ok scan d uid r) (applicable pols t CSelect))
        (rows d t)
  end.

Definition scan_profiles (pols : list policy) (d : db) (uid : uuid) : list row :=
  visible depth pols d uid profiles.

(** ** Constraints *)

Definition profile_exists (d : db) (u : uuid) : bool :=
  existsb (fun r => table_eqb (row_table r) profiles && (row_id r =? u)) (db_rows d).

Definition assignment_exists (d : db) (u : uuid) : bool :=
  existsb (fun r => table_eqb (row_table r) assignments && (row_id r =? u)) (db_rows d).

Definition user_exists (d : db) (u : uuid) : bool :=
  existsb (fun x => u_id x =? u) (db_users d).

Definition same_pair (s : submission) (r : row) : bool :=
  match r with
  | RSubmission s' =>
      (s_assignment_id s' =? s_assignment_id s) && (s_student_id s' =? s_student_id s)
  | _ => false
  end.

(** Unique indexes in creation order: the primary key, then
    [UNIQUE(assignment_id, student_id)] of [assignment_submissions]. *)
Definition unique_violation (d : db) (r : row) : option string :=
  if existsb (fun x => table_eqb (row_table x) (row_table r) && (row_id x =? row_id r))
       (db_rows d)
  then Some (table_name (row_table r) ++ "_pkey")%string
  else match r with
       | RSubmission s =>
           if existsb (same_pair s) (db_rows d)
           then Some "assignment_submissions_assignment_id_student_id_key"%string
           else None
       | _ => None
       end.

(** [REFERENCES] clauses ([announcements.teacher_id] has none). *)
Definition fk_violation (d : db) (r : row) : option string :=
  match r with
  | RProfile p =>
      if user_exists d (p_id p) then None else Some "profiles_id_fkey"%string
  | RAssignment a =>
      if profile_exists d (a_teacher_id a) then None
      else Some "assignments_teacher_id_fkey"%string
  | RSubmission s =>
      if negb (assignment_exists d (s_assignment_id s))
      then Some "assignment_submissions_assignment_id_fkey"%string
      else if negb (profile_exists d (s_student_id s))
      then Some "assignment_submissions_student_id_fkey"%string
      else None
  | RResult x =>
      if negb (profile_exists d (r_student_id x))
      then Some "results_student_id_fkey"%string
      else if negb (profile_exists d (r_teacher_id x))
      then Some "results_teacher_id_fkey"%string
      else None
  | RPayment x =>
      if profile_exists d (pay_student_id x) then None
      else Some "payments_student_id_fkey"%string
  | RAnnouncement _ => None
  end.

(** ** Statements under row-level security

    The requester is [auth.uid()]. The client's updates and deletes always
    filter with [.eq(...)], so their [WHERE] reads columns and the [SELECT]
    policies also restrict the target rows. Rows an [UPDATE] or [DELETE]
    policy does not admit are skipped without error; a new row failing a
    [WITH CHECK] aborts the statement. Constraint re-checks on [UPDATE] are
    not modelled: no update of the client changes a key column. *)

Definition select (pols : list policy) (d : db) (uid : uuid) (t : table)
    : outcome (list row) :=
  match recursion_in depth pols [] t [CSelect] with
  | Some t' => Err (EPolicyRecursion t')
  | None => Ok (visible (S depth) pols d uid t)
  end.

(** [INSERT]: policy check, then [NOT NULL]/unique constraints, then the
    foreign keys at the end of the statement. *)
Definition insert (pols : list policy) (d : db) (uid : uuid) (r : row)
    : outcome db :=
  let t := row_table r in
  match recursion_in depth pols [] t [CInsert] with
  | Some t' => Err (EPolicyRecursion t')
  | None =>
      let scan := scan_profiles pols d uid in
      if negb (existsb (pol_check_ok scan d uid r) (applicable pols t CInsert))
      then Err (ERlsViolation t)
      else match unique_violation d r with
           | Some c => Err (EUniqueViolation c)
           | None =>
               match fk_violation d r with
               | Some c => Err (EFkViolation c)
               | None => Ok (mkDb (db_users d) (db_rows d ++ [r]))
               end
           end
  end.

Definition update_target (pols : list policy) (d : db) (uid : uuid) (t : table)
    (wh : row -> bool) (r : row) : bool :=
  let scan := scan_profiles pols d uid in
  table_eqb (row_table r) t && wh r
  && existsb (pol_using_ok scan d uid r) (applicable pols t CUpdate)
  && existsb (pol_using_ok scan d uid r) (applicable pols t CSelect).

Definition update (pols : list policy) (d : db) (uid : uuid) (t : table)
    (wh : row -> bool) (st : row -> row) : outcome db :=
  match recursion_in depth pols [] t [CUpdate; CSelect] with
  | Some t' => Err (EPolicyRecursion t')
  | None =>
      let scan := scan_profiles pols d uid in
      let target := update_target pols d uid t wh in
      if forallb (fun r => negb (target r)
                           || existsb (pol_check_ok scan d uid (st r))
                                (applicable pols t CUpdate))
           (db_rows d)
      then Ok (mkDb (db_users d) (map (fun r => if target r then st r else r) (db_rows d)))
      else Err (ERlsViolation t)
  end.

Definition delete_target (pols : list policy) (d : db) (uid : uuid) (t : table)
    (wh : row -> bool) (r : row) : bool :=
  let scan := scan_profiles pols d uid in
  table_eqb (row_table r) t && wh r
  && existsb (pol_using_ok scan d uid r) (applicable pols t CDelete)
  && existsb (pol_using_ok scan d uid r) (applicable pols t CSelect).

Definition delete (pols : list policy) (d : db) (uid : uuid) (t : table)
    (wh : row -> bool) : outcome db :=
  match recursion_in depth pols [] t [CDelete; CSelect] with
  | Some t' => Err (EPolicyRecursion t')
  | None => Ok (mkDb (db_users d) (filter (fun r => negb (delete_target pols d uid t wh r))
                                      (db_rows d)))
  end.

(** [id UUID PRIMARY KEY DEFAULT gen_random_uuid()]: the client never
    sends an id, the store draws a fresh one. Profile ids come from the
    identity. *)
Definition fresh_id (d : db) : uuid :=
  S (list_max (map row_id (db_rows d) ++ map u_id (db_users d))).

Definition with_default_id (n : uuid) (r : row) : row :=
  match r with
  | RProfile p => RProfile p
  | RAssignment a =>
      RAssignment (mkAssignment n (a_teacher_id a) (a_title a) (a_description a)
                     (a_file_url a) (a_file_name a) (a_due_date a) (a_course a))
  | RSubmission s =>
      RSubmission (mkSubmission n (s_assignment_id s) (s_student_id s) (s_file_url s)
                     (s_file_name s) (s_status s) (s_grade s) (s_feedback s))
  | RResult x =>
      RResult (mkResult n (r_student_id x) (r_teacher_id x) (r_exam_type x)
                 (r_subject x) (r_marks_obtained x) (r_total_marks x)
                 (r_exam_date x) (r_remarks x))
  | RPayment x =>
      RPayment (mkPayment n (pay_student_id x) (pay_amount x) (pay_payment_type x)
                  (pay_status x) (pay_due_date x) (pay_paid_date x) (pay_semester x))
  | RAnnouncement x =>
      RAnnouncement (mkAnnouncement n (an_teacher_id x) (an_title x) (an_message x))
  end.

(** [supabase.from(t).insert(payload)] *)
Definition create (pols : list policy) (d : db) (uid : uuid) (r : row) : outcome db :=
  insert pols d uid (with_default_id (fresh_id d) r).

(** ** The policies *)

Module Policies.

(** Migration 20251123125930, lines 80-203. *)
Definition initial : list policy := [
  mkPolicy "Users can view their own profile" profiles ForSelect
    (Some (PUidEq id_col)) None;
  mkPolicy "Users can update their own profile" profiles ForUpdate
    (Some (PUidEq id_col)) None;
  mkPolicy "Teachers can view all profiles" profiles ForSelect
    (Some PExistsTeacherProfile) None;
  mkPolicy "Everyone can view assignments" assignments ForSelect
    (Some PTrue) None;
  mkPolicy "Teachers can create assignments" assignments ForInsert
    None (Some PExistsTeacherProfile);
  mkPolicy "Teachers can update their own assignments" assignments ForUpdate
    (Some (PUidEq teacher_id_col)) None;
  mkPolicy "Teachers can delete their own assignments" assignments ForDelete
    (Some (PUidEq teacher_id_col)) None;
  mkPolicy "Students can view their own submissions" assignment_submissions ForSelect
    (Some (PUidEq student_id_col)) None;
  mkPolicy "Teachers can view all submissions" assignment_submissions ForSelect
    (Some PExistsTeacherProfile) None;
  mkPolicy "Students can create their own submissions" assignment_submissions ForInsert
    None (Some (PUidEq student_id_col));
  mkPolicy "Teachers can update submissions (for grading)" assignment_submissions ForUpdate
    (Some PExistsTeacherProfile) None;
  mkPolicy "Students can view their own results" results ForSelect
    (Some (PUidEq student_id_col)) None;
  mkPolicy "Teachers can view all results" results ForSelect
    (Some PExistsTeacherProfile) None;
  mkPolicy "Teachers can create results" results ForInsert
    None (Some PExistsTeacherProfile);
  mkPolicy "Teachers can update results" results ForUpdate
    (Some (PUidEq teacher_id_col)) None;
  mkPolicy "Students can view their own payments" payments ForSelect
    (Some (PUidEq student_id_col)) None;
  mkPolicy "Teachers can view all payments" payments ForSelect
    (Some PExistsTeacherProfile) None;
  mkPolicy "Teachers can manage payments" payments ForAll
    (Some PExistsTeacherProfile) None ].

(** [DROP POLICY IF EXISTS name ON t] *)
Definition drop_policy (name : string) (t : table) (pols : list policy) : list policy :=
  filter (fun p => negb (String.eqb (pol_name p) name && table_eqb (pol_table p) t)) pols.

(** Migration 20251224134008: the announcement policies, then the
    profile visibility policy rebuilt over [is_teacher]. *)
Definition current : list policy :=
  drop_policy "Teachers can view all profiles" profiles
    (initial ++ [
      mkPolicy "Everyone can view announcements" announcements ForSelect
        (Some PTrue) None;
      mkPolicy "Teachers can create announcements" announcements ForInsert
        None (Some PExistsTeacherProfile);
      mkPolicy "Teachers can delete their announcements" announcements ForDelete
        (Some (PUidEq teacher_id_col)) None ])
  ++ [ mkPolicy "Teachers can view all profiles" profiles ForSelect
         (Some PIsTeacherUid) None ].

End Policies.

(** ** The signup trigger (migration 20251123125943, lines 7-23) *)

Definition meta_get (k : string) (m : list (string * string)) : option string :=
  match find (fun kv => String.eqb (fst kv) k) m with
  | Some kv => Some (snd kv)
  | None => None
  end.

Definition coalesce {A : Type} (o : option A) (dflt : A) : A :=
  match o with Some a => a | None => dflt end.

(** [INSERT INTO public.profiles (id, email, full_name, role) VALUES (NEW.id,
    NEW.email, COALESCE(NEW.raw_user_meta_data->>'full_name', 'User'),
    COALESCE((NEW.raw_user_meta_data->>'role')::user_role, 'student'))];
    the cast of a missing key is NULL, the cast of an unknown label fails.
    The other columns of the inserted row are NULL. *)
Definition handle_new_user (NEW : auth_user) : outcome profile :=
  let meta := u_raw_user_meta_data NEW in
  let role :=
    match meta_get "role" meta with
    | None => Ok student
    | Some s => match user_role_of_text s with
                | Some r => Ok r
                | None => Err (EInvalidEnum s)
                end
    end in
  match role with
  | Err e => Err e
  | Ok r =>
      Ok (mkProfile (u_id NEW) (u_email NEW) (coalesce (meta_get "full_name" meta) "User"%string)
            r None None None None)
  end.

(** [CREATE TRIGGER on_auth_user_created AFTER INSERT ON auth.users]: the
    trigger runs in the statement that creates the identity, as the
    function owner (no policy applies); a failure aborts both inserts. *)
Definition on_auth_user_created (d : db) (NEW : auth_user) : outcome db :=
  let d1 := mkDb (db_users d ++ [NEW]) (db_rows d) in
  match handle_new_user NEW with
  | Err e => Err e
  | Ok p =>
      match unique_violation d1 (RProfile p) with
      | Some c => Err (EUniqueViolation c)
      | None =>
          match fk_violation d1 (RProfile p) with
          | Some c => Err (EFkViolation c)
          | None => Ok (mkDb (db_users d1) (db_rows d1 ++ [RProfile p]))
          end
      end
  end.

(** Ownership test [uid = c] of a row. *)
Definition owns (c : column) (uid : uuid) (r : row) : bool :=
  match row_col r c with Some v => v =? uid | None => false end.

(** ** Client helpers *)

(** [handlePayment] of [Payments.tsx], lines 103-117:
    [supabase.from('payments').update({ status: 'paid', paid_date: today })
    .eq('id', paymentId)], issued by the signed-in user. *)
Definition set_paid (today : string) (r : row) : row :=
  match r with
  | RPayment x =>
      RPayment (mkPayment (pay_id x) (pay_student_id x) (pay_amount x)
                  (pay_payment_type x) (Some "paid"%string) (pay_due_date x)
                  (Some today) (pay_semester x))
  | _ => r
  end.

Definition handlePayment (d : db) (uid : uuid) (paymentId : uuid) (today : string)
    : outcome db :=
  update Policies.current d uid payments
    (fun r => match row_col r id_col with Some v => v =? paymentId | None => false end)
    (set_paid today).

(** [handleDelete] of the Announcements component:
    [supabase.from('announcements').delete().eq('id', id)]. *)
Definition handleDelete (d : db) (uid : uuid) (id : uuid) : outcome db :=
  delete Policies.current d uid announcements (owns id_col id).

(** A self-service profile update the API accepts from a signed-in holder:
    [supabase.from('profiles').update({ role }).eq('id', uid)]. *)
Definition set_profile_role (role : user_role) (r : row) : row :=
  match r with
  | RProfile p =>
      RProfile (mkProfile (p_id p) (p_email p) (p_full_name p) role (p_roll_number p)
                  (p_course p) (p_department p) (p_phone p))
  | _ => r
  end.

(** [getPercentage] of [Results.tsx], line 114: [(obtained / total) * 100].
    A JavaScript division by zero gives NaN or an infinity, represented by
    [None]; the [toFixed(2)] formatting is left out. *)
Definition getPercentage (obtained total : Q) : option Q :=
  if Qeq_bool total 0 then None else Some ((obtained / total) * 100)%Q.

(** [getGrade] of [Results.tsx], lines 116-123. *)
Record grade_info := mkGrade { grade : string; color : string }.

Definition getGrade (percentage : Q) : grade_info :=
  if Qle_bool 90 percentage then mkGrade "A+" "text-green-600"
  else if Qle_bool 80 percentage then mkGrade "A" "text-green-500"
  else if Qle_bool 70 percentage then mkGrade "B" "text-blue-500"
  else if Qle_bool 60 percentage then mkGrade "C" "text-yellow-500"
  else if Qle_bool 50 percentage then mkGrade "D" "text-orange-500"
  else mkGrade "F" "text-red-500".

(** The order F < D < C < B < A < A+ on the grade labels. *)
Definition grade_rank (g : string) : nat :=
  if String.eqb g "A+" then 5
  else if String.eqb g "A" then 4
  else if String.eqb g "B" then 3
  else if String.eqb g "C" then 2
  else if String.eqb g "D" then 1
  else 0.

Definition grades : list string := ["A+"; "A"; "B"; "C"; "D"; "F"]%string.

(** Indicator of a boolean. *)
Definition ind (b : bool) : nat := if b then 1 else 0.

(** ** Further client operations *)

(** [handleDelete] of the Assignments page:
    [supabase.from('assignments').delete().eq('id', id)]. *)
Definition handleDeleteAssignment (d : db) (uid : uuid) (id : uuid) : outcome db :=
  delete Policies.current d uid assignments (owns id_col id).

(** The profile form of [StudentProfile]: [supabase.from('profiles').update({
    full_name, roll_number, course, phone }).eq('id', profile.id)]. *)
Definition set_profile_fields (full_name roll_number course phone : string) (r : row) : row :=
  match r with
  | RProfile p =>
      RProfile (mkProfile (p_id p) (p_email p) full_name (p_role p) (Some roll_number)
                  (Some course) (p_department p) (Some phone))
  | _ => r
  end.

Definition handleProfileSubmit (d : db) (uid : uuid) (profileId : uuid)
    (full_name roll_number course phone : string) : outcome db :=
  update Policies.current d uid profiles (owns id_col profileId)
    (set_profile_fields full_name roll_number course phone).





(** A sum where a NaN or an infinity (here [None]) absorbs everything. *)
Definition add_opt (acc x : option Q) : option Q :=
  match acc, x with
  | Some a, Some b => Some (a + b)%Q
  | _, _ => None
  end.

(** The "Average Score" of [Results.tsx]:
    [results.reduce((acc, r) => acc + (r.marks_obtained / r.total_marks) * 100, 0)
    / results.length]; [0 / 0] is NaN for an empty list. *)
Definition average_score (rs : list result) : option Q :=
  match fold_left (fun acc r => add_opt acc (getPercentage (r_marks_obtained r) (r_total_marks r)))
          rs (Some 0%Q) with
  | Some s =>
      if Nat.eqb (List.length rs) 0 then None
      else Some (s / inject_Z (Z.of_nat (List.length rs)))%Q
  | None => None
  end.





(** ** Sample data: teachers 1 and 3, student 2 *)

Section SampleData.
Local Open Scope string_scope.
Local Open Scope nat_scope.

Definition teacher_T : profile :=
  mkProfile 1 "tina@school.edu" "Tina" teacher None None (Some "CSE") None.
Definition student_S : profile :=
  mkProfile 2 "sam@school.edu" "Sam" student (Some "R-17") (Some "CSE") None None.
Definition teacher_U : profile :=
  mkProfile 3 "uma@school.edu" "Uma" teacher None None (Some "EEE") None.
Definition assignment_A : assignment :=
  mkAssignment 10 1 "Lab 1" None None None None (Some "CSE").
Definition payment_P : payment :=
  mkPayment 20 2 500%Q "tuition" (Some "pending") "2025-01-31" None (Some "Spring").
Definition announcement_N : announcement :=
  mkAnnouncement 30 1 "Exam" "Midterm on Monday".

Definition sample_db : db :=
  mkDb [mkUser 1 "tina@school.edu" []; mkUser 2 "sam@school.edu" [];
        mkUser 3 "uma@school.edu" []]
       [RProfile teacher_T; RProfile student_S; RProfile teacher_U;
        RAssignment assignment_A; RPayment payment_P; RAnnouncement announcement_N].

(** The payload of [Results.tsx]'s insert with both marks left at 0. *)
Definition zero_result : result :=
  mkResult 0 2 1 "CT" "Math" 0%Q 0%Q "2025-02-01" None.

(** A submission payload of student 2 for assignment 10. *)
Definition submission_S : submission :=
  mkSubmission 0 10 2 (Some "https://files/lab1.pdf") (Some "lab1.pdf") None None None.

(** A new identity as [Auth.tsx] signs it up for a student. *)
Definition signup_user : auth_user :=
  mkUser 4 "rina@school.edu"
    [("full_name", "Rina"); ("role", "student"); ("roll_number", "R-42");
     ("course", "CSE")].

End SampleData.

(** ** Tests *)

Example recursion_initial :
  recursion_in depth Policies.initial [] results [CSelect] = Some profiles.
Proof. reflexivity. Qed.

Example recursion_current :
  recursion_in depth Policies.current [] results [CSelect] = None.
Proof. reflexivity. Qed.

(** Under the first migration's policies, reading [profiles] fails:
    "Teachers can view all profiles" reads [profiles] again. *)
Example profiles_select_initial :
  select Policies.initial sample_db 1 profiles = Err (EPolicyRecursion profiles).
Proof. reflexivity. Qed.

Example grade_85 : grade (getGrade 85) = "A"%string.
Proof. reflexivity. Qed.

(** ** Facts about the evaluator under the current policies *)

Lemma user_role_eqb_true (a b : user_role) : user_role_eqb a b = true <-> a = b.
Proof. destruct a, b; simpl; split; congruence. Qed.

Lemma teacher_row_spec (u : uuid) (x : row) :
  teacher_row u x = true <-> exists p, x = RProfile p /\ p_id p = u /\ p_role p = teacher.
Proof.
  destruct x as [p| | | | |]; simpl; split; intros H;
    try discriminate; try (destruct H as (? & ? & _); discriminate).
  - apply andb_true_iff in H as [H1 H2].
    apply Nat.eqb_eq in H1; apply user_role_eqb_true in H2. eauto.
  - destruct H as (p' & Hp & H1 & H2); injection Hp as <-.
    rewrite H1, H2, Nat.eqb_refl; reflexivity.
Qed.

Lemma is_teacher_spec (d : db) (u : uuid) :
  is_teacher d u = true <->
  exists p, In (RProfile p) (db_rows d) /\ p_id p = u /\ p_role p = teacher.
Proof.
  unfold is_teacher; rewrite existsb_exists; split.
  - intros (x & Hin & Hx); apply teacher_row_spec in Hx as (p & -> & H1 & H2); eauto.
  - intros (p & Hin & H1 & H2); exists (RProfile p); split; [exact Hin|].
    apply teacher_row_spec; eauto.
Qed.

Lemma existsb_filter_weaken {A : Type} (f g : A -> bool) (l : list A) :
  (forall x, f x = true -> g x = true) -> existsb f (filter g l) = existsb f l.
Proof.
  intros Hfg; induction l as [|x l IH]; simpl; [reflexivity|].
  destruct (g x) eqn:Hg; simpl.
  - rewrite IH; reflexivity.
  - destruct (f x) eqn:Hf; [rewrite (Hfg x Hf) in Hg; discriminate|exact IH].
Qed.

Lemma visible_current_profiles (n : nat) (d : db) (uid : uuid) :
  visible (S n) Policies.current d uid profiles
  = filter (fun r => (row_id r =? uid) || is_teacher d uid) (rows d profiles).
Proof.
  simpl. apply filter_ext; intros r. unfold pol_using_ok; simpl.
  destruct (is_teacher d uid), (row_id r =? uid); reflexivity.
Qed.

Lemma scan_current (d : db) (uid : uuid) :
  existsb (teacher_row uid) (scan_profiles Policies.current d uid) = is_teacher d uid.
Proof.
  unfold scan_profiles, depth; rewrite visible_current_profiles; unfold rows.
  rewrite existsb_filter_weaken.
  - rewrite existsb_filter_weaken; [reflexivity|].
    intros x Hx; apply teacher_row_spec in Hx as (p & -> & _); reflexivity.
  - intros x Hx; apply teacher_row_spec in Hx as (p & -> & H1 & _).
    simpl; rewrite H1, Nat.eqb_refl; reflexivity.
Qed.

Lemma visible_current_results (n : nat) (d : db) (uid : uuid) :
  visible (S n) Policies.current d uid results
  = filter (fun r => owns student_id_col uid r
                     || existsb (teacher_row uid) (visible n Policies.current d uid profiles))
      (rows d results).
Proof.
  simpl. apply filter_ext; intros r. unfold pol_using_ok, owns; simpl.
  destruct (existsb _ _), (match row_col r student_id_col with Some v => _ | None => _ end);
    reflexivity.
Qed.

Lemma visible_current_payments (n : nat) (d : db) (uid : uuid) :
  visible (S n) Policies.current d uid payments
  = filter (fun r => owns student_id_col uid r
                     || existsb (teacher_row uid) (visible n Policies.current d uid profiles))
      (rows d payments).
Proof.
  simpl. apply filter_ext; intros r. unfold pol_using_ok, owns; simpl.
  destruct (existsb _ _), (match row_col r student_id_col with Some v => _ | None => _ end);
    reflexivity.
Qed.

Lemma in_rows_filter (d : db) (t : table) (f : row -> bool) (x : row) :
  row_table x = t ->
  (In x (filter f (rows d t)) <-> In x (db_rows d) /\ f x = true).
Proof.
  intros Ht; unfold rows; rewrite !filter_In, Ht.
  destruct t; simpl; tauto.
Qed.

Lemma owns_true (c : column) (uid : uuid) (x : row) (v : uuid) :
  row_col x c = Some v -> (owns c uid x = true <-> v = uid).
Proof. intros H; unfold owns; rewrite H; apply Nat.eqb_eq. Qed.

(** ** Claims *)

(** C4: a Result or Payment row is visible to requester [r] exactly when
    [r] is its student or [r] has a teacher profile; teachers see every
    such row and a student sees no other student's row. *)
Theorem results_payments_read_policy (d : db) (r : uuid) :
  exists lr lp,
    select Policies.current d r results = Ok lr /\
    select Policies.current d r payments = Ok lp /\
    (forall x, In (RResult x) lr <->
       In (RResult x) (db_rows d) /\
       (r_student_id x = r \/
        exists p, In (RProfile p) (db_rows d) /\ p_id p = r /\ p_role p = teacher)) /\
    (forall x, In (RPayment x) lp <->
       In (RPayment x) (db_rows d) /\
       (pay_student_id x = r \/
        exists p, In (RProfile p) (db_rows d) /\ p_id p = r /\ p_role p = teacher)).
Proof.
  eexists _, _; split; [reflexivity|]; split; [reflexivity|].
  unfold depth; rewrite visible_current_results, visible_current_payments.
  change (visible 7 Policies.current d r profiles) with (scan_profiles Policies.current d r).
  rewrite scan_current; split; intros x;
    (rewrite in_rows_filter; [|reflexivity]);
    rewrite orb_true_iff, is_teacher_spec; unfold owns; simpl;
    rewrite Nat.eqb_eq; tauto.
Qed.

(** C6: [is_teacher u] holds exactly when a teacher profile with id [u]
    exists; inside a policy it reads the whole [profiles] relation, whatever
    the requester may see; the profile "read any" policy calls it, and
    expanding the [profiles] read policies re-enters no relation. *)
Theorem is_teacher_lookup (d : db) (u r : uuid) :
  (is_teacher d u = true <->
   exists p, In (RProfile p) (db_rows d) /\ p_id p = u /\ p_role p = teacher) /\
  (forall (scan : list row) (x : row), eval_pexpr scan d r x PIsTeacherUid = is_teacher d r) /\
  In (mkPolicy "Teachers can view all profiles" profiles ForSelect (Some PIsTeacherUid) None)
     (applicable Policies.current profiles CSelect) /\
  recursion_in depth Policies.current [] profiles [CSelect] = None /\
  select Policies.current d r profiles
  = Ok (filter (fun x => (row_id x =? r) || is_teacher d r) (rows d profiles)).
Proof.
  split; [apply is_teacher_spec|].
  split; [reflexivity|].
  split; [simpl; tauto|].
  split; [reflexivity|].
  unfold select; simpl recursion_in; cbv iota.
  rewrite visible_current_profiles; reflexivity.
Qed.

(** C9: the delete of announcement [a] by [r] removes [a] exactly when
    [r] is its author; otherwise no row is deleted and [a] remains. *)
Theorem announcement_delete_author_only (d : db) (r : uuid) (a : announcement) :
  In (RAnnouncement a) (db_rows d) ->
  exists d', handleDelete d r (an_id a) = Ok d' /\
    (In (RAnnouncement a) (db_rows d') <-> an_teacher_id a <> r).
Proof.
  intros Hin; unfold handleDelete, delete.
  replace (recursion_in depth Policies.current [] announcements [CDelete; CSelect])
    with (@None table) by reflexivity.
  eexists; split; [reflexivity|]; simpl.
  rewrite filter_In; unfold delete_target, owns; simpl.
  rewrite Nat.eqb_refl; unfold pol_using_ok; simpl.
  destruct (an_teacher_id a =? r) eqn:E; simpl.
  - apply Nat.eqb_eq in E; split; [intros [_ H]; discriminate | tauto].
  - apply Nat.eqb_neq in E; tauto.
Qed.

Lemma payments_update_target (d : db) (u : uuid) (wh : row -> bool) (x : row) :
  update_target Policies.current d u payments wh x
  = table_eqb (row_table x) payments && wh x && is_teacher d u
    && (owns student_id_col u x || (is_teacher d u || is_teacher d u)).
Proof.
  unfold update_target; simpl; unfold pol_using_ok; simpl.
  rewrite scan_current, !orb_false_r; reflexivity.
Qed.

Lemma not_teacher_false (d : db) (u : uuid) :
  ~ (exists p, In (RProfile p) (db_rows d) /\ p_id p = u /\ p_role p = teacher) ->
  is_teacher d u = false.
Proof.
  intros H; destruct (is_teacher d u) eqn:E; [|reflexivity].
  exfalso; apply H, is_teacher_spec, E.
Qed.

Lemma map_id_ext {A : Type} (f : A -> A) (l : list A) :
  (forall x, f x = x) -> map f l = l.
Proof. intros H; induction l as [|x l IH]; simpl; [|rewrite H, IH]; reflexivity. Qed.

(** C2: the "pay now" update of [handlePayment] on payment [p] changes
    nothing when issued by an identity without a teacher profile, and
    stores [p] with status 'paid' and the given paid_date when issued by a
    teacher. *)
Theorem payment_paid_teacher_only (d : db) (p : payment) (today : string) (u : uuid) :
  In (RPayment p) (db_rows d) ->
  pay_status p = Some "pending"%string ->
  (~ (exists q, In (RProfile q) (db_rows d) /\ p_id q = u /\ p_role q = teacher) ->
   handlePayment d u (pay_id p) today = Ok d) /\
  ((exists q, In (RProfile q) (db_rows d) /\ p_id q = u /\ p_role q = teacher) ->
   exists d', handlePayment d u (pay_id p) today = Ok d' /\
     In (RPayment (mkPayment (pay_id p) (pay_student_id p) (pay_amount p)
                     (pay_payment_type p) (Some "paid"%string) (pay_due_date p)
                     (Some today) (pay_semester p))) (db_rows d')).
Proof.
  intros Hin _; unfold handlePayment, update.
  replace (recursion_in depth Policies.current [] payments [CUpdate; CSelect])
    with (@None table) by reflexivity.
  split.
  - intros Hnt; apply not_teacher_false in Hnt.
    assert (Ht : forall x, update_target Policies.current d u payments
                    (fun r => match row_col r id_col with
                              | Some v => v =? pay_id p | None => false end) x = false).
    { intros x; rewrite payments_update_target, Hnt, !andb_false_r; reflexivity. }
    replace (forallb _ (db_rows d)) with true.
    + rewrite map_id_ext by (intros x; rewrite Ht; reflexivity).
      destruct d; reflexivity.
    + symmetry; apply forallb_forall; intros x _; rewrite Ht; reflexivity.
  - intros Ht; apply is_teacher_spec in Ht.
    replace (forallb _ (db_rows d)) with true.
    + eexists; split; [reflexivity|]; simpl.
      apply in_map_iff; exists (RPayment p); split; [|exact Hin].
      rewrite payments_update_target, Ht; simpl; rewrite Nat.eqb_refl, !orb_true_r; reflexivity.
    + symmetry; apply forallb_forall; intros x _.
      unfold pol_check_ok, pol_using_ok; simpl; rewrite scan_current, Ht.
      apply orb_true_r.
Qed.

(** C5: an identity without a teacher profile cannot insert into
    [assignments], [results] or [payments], whatever the payload. *)
Theorem non_teacher_insert_rejected (d : db) (r : uuid) (x : row) :
  ~ (exists p, In (RProfile p) (db_rows d) /\ p_id p = r /\ p_role p = teacher) ->
  In (row_table x) [assignments; results; payments] ->
  create Policies.current d r x = Err (ERlsViolation (row_table x)).
Proof.
  intros Hnt Htab; apply not_teacher_false in Hnt.
  unfold create, insert.
  destruct x; simpl in Htab |- *;
    repeat (destruct Htab as [Htab|Htab]; [discriminate|]); try contradiction;
    unfold pol_check_ok, pol_using_ok; simpl; rewrite scan_current, Hnt; reflexivity.
Qed.

Lemma fresh_id_new (d : db) (x : row) : In x (db_rows d) -> row_id x <> fresh_id d.
Proof.
  intros Hin; unfold fresh_id.
  assert (row_id x <= list_max (map row_id (db_rows d) ++ map u_id (db_users d)))%nat.
  { pose proof (proj1 (list_max_le (map row_id (db_rows d) ++ map u_id (db_users d)) _)
                  (le_n _)) as HF.
    rewrite Forall_forall in HF; apply HF, in_or_app; left; apply in_map, Hin. }
  lia.
Qed.

Lemma pk_fresh (d : db) (t : table) (n : uuid) :
  n = fresh_id d ->
  existsb (fun x => table_eqb (row_table x) t && (row_id x =? n)) (db_rows d) = false.
Proof.
  intros ->; destruct (existsb _ _) eqn:E; [|reflexivity].
  apply existsb_exists in E as (x & Hin & Hx).
  apply andb_true_iff in Hx as [_ Hx]; apply Nat.eqb_eq in Hx.
  exfalso; exact (fresh_id_new d x Hin Hx).
Qed.

Lemma profile_exists_spec (d : db) (u : uuid) :
  profile_exists d u = true <-> exists p, In (RProfile p) (db_rows d) /\ p_id p = u.
Proof.
  unfold profile_exists; rewrite existsb_exists; split.
  - intros ([p| | | | |] & Hin & H); simpl in H; try discriminate.
    apply Nat.eqb_eq in H; eauto.
  - intros (p & Hin & <-); exists (RProfile p); simpl; rewrite Nat.eqb_refl; auto.
Qed.

Lemma assignment_exists_spec (d : db) (u : uuid) :
  assignment_exists d u = true <-> exists a, In (RAssignment a) (db_rows d) /\ a_id a = u.
Proof.
  unfold assignment_exists; rewrite existsb_exists; split.
  - intros ([|a| | | |] & Hin & H); simpl in H; try discriminate.
    apply Nat.eqb_eq in H; eauto.
  - intros (a & Hin & <-); exists (RAssignment a); simpl; rewrite Nat.eqb_refl; auto.
Qed.

Lemma same_pair_spec (s : submission) (l : list row) :
  existsb (same_pair s) l = true <->
  exists y, In (RSubmission y) l /\ s_assignment_id y = s_assignment_id s
            /\ s_student_id y = s_student_id s.
Proof.
  rewrite existsb_exists; split.
  - intros ([| |y| | |] & Hin & H); simpl in H; try discriminate.
    apply andb_true_iff in H as [H1 H2]; apply Nat.eqb_eq in H1, H2; eauto.
  - intros (y & Hin & H1 & H2); exists (RSubmission y); simpl.
    rewrite H1, H2, !Nat.eqb_refl; auto.
Qed.

Lemma profile_exists_app (d : db) (extra : list row) (u : uuid) :
  profile_exists d u = true ->
  profile_exists (mkDb (db_users d) (db_rows d ++ extra)) u = true.
Proof.
  unfold profile_exists; simpl; rewrite existsb_app; intros ->; reflexivity.
Qed.

Lemma assignment_exists_app (d : db) (extra : list row) (u : uuid) :
  assignment_exists d u = true ->
  assignment_exists (mkDb (db_users d) (db_rows d ++ extra)) u = true.
Proof.
  unfold assignment_exists; simpl; rewrite existsb_app; intros ->; reflexivity.
Qed.

Lemma unique_violation_submission (d : db) (y : submission) :
  s_id y = fresh_id d ->
  unique_violation d (RSubmission y)
  = if existsb (same_pair y) (db_rows d)
    then Some "assignment_submissions_assignment_id_student_id_key"%string else None.
Proof.
  intros H; unfold unique_violation; simpl row_table; simpl row_id.
  rewrite (pk_fresh d assignment_submissions (s_id y) H); reflexivity.
Qed.

Lemma fk_violation_submission (d : db) (y : submission) :
  assignment_exists d (s_assignment_id y) = true ->
  profile_exists d (s_student_id y) = true ->
  fk_violation d (RSubmission y) = None.
Proof. intros Ha Hp; simpl; rewrite Ha, Hp; reflexivity. Qed.

(** C3: the first submission of student [s] to assignment [a] is stored;
    any later insert for the same (assignment_id, student_id) pair fails,
    and when [s] issues it, it fails on the unique constraint. *)
Theorem submission_unique_per_pair (d : db) (s a : uuid) (sub1 sub2 : submission) :
  (exists p, In (RProfile p) (db_rows d) /\ p_id p = s /\ p_role p = student) ->
  (exists x, In (RAssignment x) (db_rows d) /\ a_id x = a) ->
  ~ (exists y, In (RSubmission y) (db_rows d)
               /\ s_assignment_id y = a /\ s_student_id y = s) ->
  s_assignment_id sub1 = a -> s_student_id sub1 = s ->
  s_assignment_id sub2 = a -> s_student_id sub2 = s ->
  exists d1,
    create Policies.current d s (RSubmission sub1) = Ok d1 /\
    db_rows d1 = db_rows d ++ [with_default_id (fresh_id d) (RSubmission sub1)] /\
    (forall r, exists e, create Policies.current d1 r (RSubmission sub2) = Err e) /\
    create Policies.current d1 s (RSubmission sub2)
    = Err (EUniqueViolation "assignment_submissions_assignment_id_student_id_key").
Proof.
  intros (p & Hp & Hps & _) Ha Hnone Ha1 Hs1 Ha2 Hs2.
  unfold create, insert.
  cbn -[fresh_id unique_violation fk_violation scan_profiles].
  rewrite Hs1, Nat.eqb_refl; cbn -[fresh_id unique_violation fk_violation scan_profiles].
  rewrite unique_violation_submission by reflexivity.
  match goal with |- context [existsb (same_pair ?y) (db_rows d)] =>
    replace (existsb (same_pair y) (db_rows d)) with false;
    [|symmetry; apply not_true_iff_false; rewrite same_pair_spec; simpl; rewrite Ha1;
      exact Hnone] end.
  rewrite fk_violation_submission; simpl;
    [| rewrite Ha1; apply assignment_exists_spec, Ha
     | apply profile_exists_spec; eauto].
  eexists; split; [reflexivity|]; split; [reflexivity|].
  assert (Hu : forall y, s_id y = fresh_id (mkDb (db_users d) (db_rows d ++
      [RSubmission (mkSubmission (fresh_id d) (s_assignment_id sub1) s (s_file_url sub1)
         (s_file_name sub1) (s_status sub1) (s_grade sub1) (s_feedback sub1))])) ->
      s_assignment_id y = a -> s_student_id y = s ->
      unique_violation (mkDb (db_users d) (db_rows d ++
      [RSubmission (mkSubmission (fresh_id d) (s_assignment_id sub1) s (s_file_url sub1)
         (s_file_name sub1) (s_status sub1) (s_grade sub1) (s_feedback sub1))]))
        (RSubmission y)
      = Some "assignment_submissions_assignment_id_student_id_key"%string).
  { intros y Hy Hya Hys; rewrite unique_violation_submission by exact Hy.
    replace (existsb _ _) with true; [reflexivity|].
    symmetry; apply same_pair_spec; eexists; split.
    - apply in_or_app; right; left; reflexivity.
    - simpl; rewrite Ha1, Hya, Hys; split; reflexivity. }
  rewrite Hu by auto; split.
  - intros r; destruct (s_student_id sub2 =? r); simpl; eexists; reflexivity.
  - rewrite Hs2, Nat.eqb_refl; reflexivity.
Qed.

Lemma Qle_bool_trans (t u p : Q) :
  Qle_bool u t = true -> Qle_bool t p = true -> Qle_bool u p = true.
Proof.
  rewrite !Qle_bool_iff; intros H1 H2; exact (Qle_trans _ _ _ H1 H2).
Qed.

Lemma Qle_bool_mono (t p q : Q) :
  (p <= q)%Q -> Qle_bool t p = true -> Qle_bool t q = true.
Proof.
  rewrite !Qle_bool_iff; intros H1 H2; exact (Qle_trans _ _ _ H2 H1).
Qed.

Lemma getGrade_rank (p : Q) :
  grade_rank (grade (getGrade p))
  = (ind (Qle_bool 50 p) + ind (Qle_bool 60 p) + ind (Qle_bool 70 p)
     + ind (Qle_bool 80 p) + ind (Qle_bool 90 p))%nat.
Proof.
  unfold getGrade.
  destruct (Qle_bool 90 p) eqn:E90.
  { rewrite (Qle_bool_trans 90 80 p), (Qle_bool_trans 90 70 p), (Qle_bool_trans 90 60 p),
      (Qle_bool_trans 90 50 p) by (reflexivity || exact E90); reflexivity. }
  destruct (Qle_bool 80 p) eqn:E80.
  { rewrite (Qle_bool_trans 80 70 p), (Qle_bool_trans 80 60 p),
      (Qle_bool_trans 80 50 p) by (reflexivity || exact E80); reflexivity. }
  destruct (Qle_bool 70 p) eqn:E70.
  { rewrite (Qle_bool_trans 70 60 p), (Qle_bool_trans 70 50 p)
      by (reflexivity || exact E70); reflexivity. }
  destruct (Qle_bool 60 p) eqn:E60.
  { rewrite (Qle_bool_trans 60 50 p) by (reflexivity || exact E60); reflexivity. }
  destruct (Qle_bool 50 p); reflexivity.
Qed.

Lemma ind_mono (t p q : Q) : (p <= q)%Q -> (ind (Qle_bool t p) <= ind (Qle_bool t q))%nat.
Proof.
  intros H; destruct (Qle_bool t p) eqn:E; simpl.
  - rewrite (Qle_bool_mono t p q H E); simpl; lia.
  - lia.
Qed.

(** C10: [getGrade] maps every percentage to one of A+, A, B, C, D, F, its
    rank in F < D < C < B < A < A+ is the number of thresholds 50, 60, 70,
    80, 90 the percentage reaches, and it is monotone. *)
Theorem getGrade_total_monotone :
  (forall p, In (grade (getGrade p)) grades) /\
  (forall p, grade_rank (grade (getGrade p))
             = List.length (filter (fun t => Qle_bool t p) [50; 60; 70; 80; 90]%Q)) /\
  (forall p q, (p <= q)%Q -> (grade_rank (grade (getGrade p)) <= grade_rank (grade (getGrade q)))%nat).
Proof.
  split; [|split].
  - intros p; unfold getGrade, grades.
    destruct (Qle_bool 90 p); [simpl; tauto|].
    destruct (Qle_bool 80 p); [simpl; tauto|].
    destruct (Qle_bool 70 p); [simpl; tauto|].
    destruct (Qle_bool 60 p); [simpl; tauto|].
    destruct (Qle_bool 50 p); simpl; tauto.
  - intros p; rewrite getGrade_rank; simpl.
    destruct (Qle_bool 50 p), (Qle_bool 60 p), (Qle_bool 70 p), (Qle_bool 80 p),
      (Qle_bool 90 p); reflexivity.
  - intros p q H; rewrite !getGrade_rank.
    pose proof (ind_mono 50 p q H); pose proof (ind_mono 60 p q H);
    pose proof (ind_mono 70 p q H); pose proof (ind_mono 80 p q H);
    pose proof (ind_mono 90 p q H); lia.
Qed.


(** C8 (counterexample): teacher 1 stores a result for student 2 with
    [total_marks = 0]; its percentage is not a number. *)
Lemma result_zero_total_accepted :
  create Policies.current sample_db 1 (RResult zero_result)
  = Ok (mkDb (db_users sample_db)
             (db_rows sample_db ++
              [RResult (mkResult 31 2 1 "CT" "Math" 0 0 "2025-02-01" None)])) /\
  ~ (0 < 0)%Q /\ getPercentage 0 0 = None.
Proof.
  split; [reflexivity|]; split; [apply Qlt_irrefl | reflexivity].
Qed.

(** C8 (amended): a result inserted by a teacher for existing profiles is
    stored whatever its marks; its percentage is defined exactly when
    [total_marks] is not 0. *)
Theorem result_create_any_marks (d : db) (t : uuid) (x : result) :
  (exists p, In (RProfile p) (db_rows d) /\ p_id p = t /\ p_role p = teacher) ->
  (exists p, In (RProfile p) (db_rows d) /\ p_id p = r_student_id x) ->
  r_teacher_id x = t ->
  create Policies.current d t (RResult x)
  = Ok (mkDb (db_users d) (db_rows d ++ [with_default_id (fresh_id d) (RResult x)])) /\
  (getPercentage (r_marks_obtained x) (r_total_marks x) = None <-> (r_total_marks x == 0)%Q).
Proof.
  intros Ht Hs Htx; split.
  - assert (Ht' : is_teacher d t = true) by (apply is_teacher_spec, Ht).
    assert (Hs' : profile_exists d (r_student_id x) = true) by (apply profile_exists_spec, Hs).
    assert (Htp : profile_exists d t = true).
    { destruct Ht as (p & Hp & Hid & _); apply profile_exists_spec; eauto. }
    unfold create, insert.
    cbn -[fresh_id scan_profiles is_teacher profile_exists].
    unfold pol_check_ok; cbn -[fresh_id scan_profiles is_teacher profile_exists].
    rewrite scan_current, Ht'; cbn -[fresh_id is_teacher profile_exists].
    unfold unique_violation; simpl row_table; simpl row_id.
    rewrite (pk_fresh d results (fresh_id d) eq_refl); simpl.
    rewrite Hs', Htx, Htp; reflexivity.
  - unfold getPercentage; split.
    + destruct (Qeq_bool (r_total_marks x) 0) eqn:E; [|discriminate].
      intros _; apply Qeq_bool_eq, E.
    + intros H; apply Qeq_bool_iff in H; rewrite H; reflexivity.
Qed.

(** C1 (counterexample): student 2 updates the role of their own profile
    to teacher, and the update is stored. *)
Lemma profile_self_role_change :
  update Policies.current sample_db 2 profiles (owns id_col 2) (set_profile_role teacher)
  = Ok (mkDb (db_users sample_db)
             [RProfile teacher_T;
              RProfile (mkProfile 2 "sam@school.edu" "Sam" teacher (Some "R-17"%string)
                          (Some "CSE"%string) None None);
              RProfile teacher_U; RAssignment assignment_A; RPayment payment_P;
              RAnnouncement announcement_N]).
Proof. reflexivity. Qed.

Lemma forallb_ext' {A : Type} (f g : A -> bool) (l : list A) :
  (forall x, f x = g x) -> forallb f l = forallb g l.
Proof. intros H; induction l as [|x l IH]; simpl; [|rewrite H, IH]; reflexivity. Qed.

(** C1 (amended): an update by [r] on [profiles] touches exactly the rows
    with [id = r] its filter selects, every new row must keep [id = r],
    and no column is restricted: a holder may set their own role. *)
Theorem profile_update_policy (d : db) (r : uuid) (wh : row -> bool) (st : row -> row) :
  update Policies.current d r profiles wh st
  = (let target x := table_eqb (row_table x) profiles && wh x && (row_id x =? r) in
     if forallb (fun x => negb (target x) || owns id_col r (st x)) (db_rows d)
     then Ok (mkDb (db_users d) (map (fun x => if target x then st x else x) (db_rows d)))
     else Err (ERlsViolation profiles)).
Proof.
  unfold update.
  replace (recursion_in depth Policies.current [] profiles [CUpdate; CSelect])
    with (@None table) by reflexivity.
  cbv zeta.
  assert (Ht : forall x, update_target Policies.current d r profiles wh x
                         = table_eqb (row_table x) profiles && wh x && (row_id x =? r)).
  { intros x; unfold update_target, pol_using_ok; simpl.
    destruct (table_eqb _ _), (wh x), (row_id x =? r); reflexivity. }
  assert (Hc : forall x, existsb (pol_check_ok (scan_profiles Policies.current d r) d r (st x))
                           (applicable Policies.current profiles CUpdate)
                         = owns id_col r (st x)).
  { intros x; unfold pol_check_ok, pol_using_ok, owns; simpl.
    destruct (row_id (st x) =? r); reflexivity. }
  rewrite (forallb_ext' _ (fun x => negb (table_eqb (row_table x) profiles && wh x && (row_id x =? r))
                                   || owns id_col r (st x)))
    by (intros x; rewrite Ht, Hc; reflexivity).
  rewrite (map_ext _ (fun x => if table_eqb (row_table x) profiles && wh x && (row_id x =? r)
                               then st x else x))
    by (intros x; rewrite Ht; reflexivity).
  reflexivity.
Qed.

(** C7 (code defect): the trigger, run on the identity [Auth.tsx] signs up
    for a student with roll_number R-42 and course CSE, stores a profile
    whose roll_number, course and department are NULL; id, full_name and
    role are taken from the identity as described. *)
Theorem handle_new_user_drops_role_fields :
  meta_get "roll_number" (u_raw_user_meta_data signup_user) = Some "R-42"%string /\
  meta_get "course" (u_raw_user_meta_data signup_user) = Some "CSE"%string /\
  handle_new_user signup_user
  = Ok (mkProfile 4 "rina@school.edu" "Rina" student None None None None) /\
  on_auth_user_created sample_db signup_user
  = Ok (mkDb (db_users sample_db ++ [signup_user])
             (db_rows sample_db ++
              [RProfile (mkProfile 4 "rina@school.edu" "Rina" student None None None None)])).
Proof. repeat split; reflexivity. Qed.

(** ** Witnesses: the claims' theorems at the sample data *)

Ltac not_teacher :=
  let H := fresh in
  intros H; apply is_teacher_spec in H; vm_compute in H; discriminate H.

Ltac not_listed :=
  let H := fresh in
  intros (? & H & _); simpl in H;
  repeat (destruct H as [H|H]; [discriminate H|]); contradiction.

Lemma payment_paid_teacher_only_witness :
  handlePayment sample_db 2 20 "2025-01-15" = Ok sample_db /\
  exists d', handlePayment sample_db 1 20 "2025-01-15" = Ok d' /\
    In (RPayment (mkPayment 20 2 500 "tuition" (Some "paid"%string) "2025-01-31"
                    (Some "2025-01-15"%string) (Some "Spring"%string))) (db_rows d').
Proof.
  split.
  - apply (payment_paid_teacher_only sample_db payment_P "2025-01-15" 2);
      [simpl; tauto | reflexivity | not_teacher].
  - apply (payment_paid_teacher_only sample_db payment_P "2025-01-15" 1);
      [simpl; tauto | reflexivity | exists teacher_T; simpl; auto].
Defined.

Lemma submission_unique_per_pair_witness :
  exists d1,
    create Policies.current sample_db 2 (RSubmission submission_S) = Ok d1 /\
    db_rows d1 = db_rows sample_db
                 ++ [with_default_id (fresh_id sample_db) (RSubmission submission_S)] /\
    (forall r, exists e, create Policies.current d1 r (RSubmission submission_S) = Err e) /\
    create Policies.current d1 2 (RSubmission submission_S)
    = Err (EUniqueViolation "assignment_submissions_assignment_id_student_id_key").
Proof.
  apply (submission_unique_per_pair sample_db 2 10 submission_S submission_S);
    try reflexivity.
  - exists student_S; simpl; auto.
  - exists assignment_A; simpl; tauto.
  - not_listed.
Defined.

Lemma non_teacher_insert_rejected_witness :
  create Policies.current sample_db 2 (RResult zero_result) = Err (ERlsViolation results).
Proof.
  apply (non_teacher_insert_rejected sample_db 2 (RResult zero_result));
    [not_teacher | simpl; tauto].
Defined.

Lemma result_create_any_marks_witness :
  create Policies.current sample_db 1 (RResult zero_result)
  = Ok (mkDb (db_users sample_db)
             (db_rows sample_db ++ [with_default_id (fresh_id sample_db) (RResult zero_result)])) /\
  (getPercentage 0 0 = None <-> (0 == 0)%Q).
Proof.
  apply (result_create_any_marks sample_db 1 zero_result).
  - exists teacher_T; simpl; auto.
  - exists student_S; simpl; auto.
  - reflexivity.
Defined.

Lemma announcement_delete_author_only_witness :
  exists d', handleDelete sample_db 3 30 = Ok d' /\
    (In (RAnnouncement announcement_N) (db_rows d') <-> 1 <> 3).
Proof.
  apply (announcement_delete_author_only sample_db 3 announcement_N); simpl; tauto.
Defined.

Lemma getGrade_total_monotone_witness :
  (72 <= 85)%Q /\ (grade_rank (grade (getGrade 72)) <= grade_rank (grade (getGrade 85)))%nat.
Proof.
  split; [vm_compute; discriminate|].
  apply (proj2 (proj2 getGrade_total_monotone) 72%Q 85%Q); vm_compute; discriminate.
Defined.

(** ** Further properties of the policies *)

Lemma filter_all_true {A : Type} (f : A -> bool) (l : list A) :
  (forall x, f x = true) -> filter f l = l.
Proof. intros H; induction l as [|x l IH]; simpl; [|rewrite H, IH]; reflexivity. Qed.

Lemma filter_none {A : Type} (f : A -> bool) (l : list A) :
  (forall x, f x = false) -> filter f l = [].
Proof. intros H; induction l as [|x l IH]; simpl; [|rewrite H, IH]; reflexivity. Qed.

Lemma forallb_const_true {A : Type} (l : list A) : forallb (fun _ => true) l = true.
Proof. induction l; simpl; auto. Qed.

(** Assignments: every requester reads every assignment row. *)
Theorem assignments_visible_to_all (d : db) (r : uuid) :
  select Policies.current d r assignments = Ok (rows d assignments).
Proof.
  unfold select.
  replace (recursion_in depth Policies.current [] assignments [CSelect])
    with (@None table) by reflexivity.
  f_equal; simpl; apply filter_all_true; reflexivity.
Qed.

(** Assignments: the delete of assignment [a] by [r] removes it exactly
    when [r] is its teacher. *)
Theorem assignment_delete_owner_only (d : db) (r : uuid) (a : assignment) :
  In (RAssignment a) (db_rows d) ->
  exists d', handleDeleteAssignment d r (a_id a) = Ok d' /\
    (In (RAssignment a) (db_rows d') <-> a_teacher_id a <> r).
Proof.
  intros Hin; unfold handleDeleteAssignment, delete.
  replace (recursion_in depth Policies.current [] assignments [CDelete; CSelect])
    with (@None table) by reflexivity.
  eexists; split; [reflexivity|]; simpl.
  rewrite filter_In; unfold delete_target, owns; simpl.
  rewrite Nat.eqb_refl; unfold pol_using_ok; simpl.
  destruct (a_teacher_id a =? r) eqn:E; simpl.
  - apply Nat.eqb_eq in E; split; [intros [_ H]; discriminate | tauto].
  - apply Nat.eqb_neq in E; tauto.
Qed.

Lemma visible_current_submissions (n : nat) (d : db) (uid : uuid) :
  visible (S n) Policies.current d uid assignment_submissions
  = filter (fun r => owns student_id_col uid r
                     || existsb (teacher_row uid) (visible n Policies.current d uid profiles))
      (rows d assignment_submissions).
Proof.
  simpl. apply filter_ext; intros r. unfold pol_using_ok, owns; simpl.
  destruct (existsb _ _), (match row_col r student_id_col with Some v => _ | None => _ end);
    reflexivity.
Qed.

(** Submissions: a submission is visible to [r] exactly when [r] submitted
    it or has a teacher profile. *)
Theorem submissions_read_policy (d : db) (r : uuid) :
  exists l, select Policies.current d r assignment_submissions = Ok l /\
    (forall x, In (RSubmission x) l <->
       In (RSubmission x) (db_rows d) /\
       (s_student_id x = r \/
        exists p, In (RProfile p) (db_rows d) /\ p_id p = r /\ p_role p = teacher)).
Proof.
  eexists; split; [reflexivity|].
  unfold depth; rewrite visible_current_submissions.
  change (visible 7 Policies.current d r profiles) with (scan_profiles Policies.current d r).
  rewrite scan_current; intros x.
  rewrite in_rows_filter by reflexivity.
  rewrite orb_true_iff, is_teacher_spec; unfold owns; simpl; rewrite Nat.eqb_eq; tauto.
Qed.

(** Submissions: an update (grading, or a student's edit) by an identity
    without a teacher profile changes nothing; a teacher's update applies to
    every submission its filter selects. *)
Theorem submission_update_teachers_only (d : db) (r : uuid) (wh : row -> bool)
    (st : row -> row) :
  (~ (exists p, In (RProfile p) (db_rows d) /\ p_id p = r /\ p_role p = teacher) ->
   update Policies.current d r assignment_submissions wh st = Ok d) /\
  ((exists p, In (RProfile p) (db_rows d) /\ p_id p = r /\ p_role p = teacher) ->
   update Policies.current d r assignment_submissions wh st
   = Ok (mkDb (db_users d)
           (map (fun x => if table_eqb (row_table x) assignment_submissions && wh x
                          then st x else x) (db_rows d)))).
Proof.
  unfold update.
  replace (recursion_in depth Policies.current [] assignment_submissions [CUpdate; CSelect])
    with (@None table) by reflexivity.
  cbv zeta.
  assert (Ht : forall x, update_target Policies.current d r assignment_submissions wh x
                 = table_eqb (row_table x) assignment_submissions && wh x && is_teacher d r
                   && (owns student_id_col r x || is_teacher d r)).
  { intros x; unfold update_target, pol_using_ok; simpl.
    rewrite scan_current, !orb_false_r; reflexivity. }
  assert (Hc : forall x, existsb (pol_check_ok (scan_profiles Policies.current d r) d r (st x))
                 (applicable Policies.current assignment_submissions CUpdate) = is_teacher d r).
  { intros x; unfold pol_check_ok, pol_using_ok; simpl; rewrite scan_current, orb_false_r.
    reflexivity. }
  split.
  - intros Hnt; apply not_teacher_false in Hnt.
    rewrite (forallb_ext' _ (fun _ => true))
      by (intros x; rewrite Ht, Hnt, !andb_false_r; reflexivity).
    rewrite map_id_ext by (intros x; rewrite Ht, Hnt, !andb_false_r; reflexivity).
    rewrite forallb_const_true; destruct d; reflexivity.
  - intros Hte; apply is_teacher_spec in Hte.
    rewrite (forallb_ext' _ (fun _ => true)) by (intros x; rewrite Hc, Hte, orb_true_r; reflexivity).
    rewrite forallb_const_true; f_equal; f_equal; apply map_ext; intros x.
    rewrite Ht, Hte, !orb_true_r, !andb_true_r; reflexivity.
Qed.


(** Announcements: no update policy exists, so any update by anyone
    leaves the database unchanged. *)
Theorem announcements_not_updatable (d : db) (r : uuid) (wh : row -> bool)
    (st : row -> row) :
  update Policies.current d r announcements wh st = Ok d.
Proof.
  unfold update.
  replace (recursion_in depth Policies.current [] announcements [CUpdate; CSelect])
    with (@None table) by reflexivity.
  cbv zeta.
  assert (Ht : forall x, update_target Policies.current d r announcements wh x = false).
  { intros x; unfold update_target; simpl.
    destruct (table_eqb (row_table x) announcements && wh x); reflexivity. }
  rewrite (forallb_ext' _ (fun _ => true)) by (intros x; rewrite Ht; reflexivity).
  rewrite forallb_const_true, map_id_ext by (intros x; rewrite Ht; reflexivity).
  destruct d; reflexivity.
Qed.

(** Profiles: no insert policy exists, so inserting a profile through the
    API (as the sign-up of [Auth.tsx] does after [signUp]) always fails. *)
Theorem profiles_insert_rejected (d : db) (r : uuid) (p : profile) :
  create Policies.current d r (RProfile p) = Err (ERlsViolation profiles).
Proof. reflexivity. Qed.

(** Profiles, submissions and results have no delete policy: a delete on
    them by anyone removes nothing. *)
Theorem no_delete_policy_tables (d : db) (r : uuid) (t : table) (wh : row -> bool) :
  In t [profiles; assignment_submissions; results] ->
  delete Policies.current d r t wh = Ok d.
Proof.
  intros Ht.
  assert (H : forall x, delete_target Policies.current d r t wh x = false).
  { intros x; unfold delete_target.
    destruct Ht as [<-|[<-|[<-|[]]]]; simpl;
      destruct (table_eqb (row_table x) _ && wh x); reflexivity. }
  unfold delete.
  replace (recursion_in depth Policies.current [] t [CDelete; CSelect]) with (@None table)
    by (destruct Ht as [<-|[<-|[<-|[]]]]; reflexivity).
  rewrite filter_all_true by (intros x; rewrite H; reflexivity).
  destruct d; reflexivity.
Qed.

(** Submissions: an insert naming a student other than the requester is
    rejected, also when a teacher sends it. *)
Theorem submission_insert_other_student_rejected (d : db) (r : uuid) (x : submission) :
  s_student_id x <> r ->
  create Policies.current d r (RSubmission x) = Err (ERlsViolation assignment_submissions).
Proof.
  intros H; unfold create, insert; simpl.
  unfold pol_check_ok; simpl.
  apply Nat.eqb_neq in H; rewrite H; reflexivity.
Qed.

(** Announcements: a teacher's insert is stored whatever author id it
    carries; the policy does not tie [teacher_id] to the requester and the
    column has no foreign key. *)
Theorem teacher_announcement_any_author (d : db) (t : uuid) (x : announcement) :
  (exists p, In (RProfile p) (db_rows d) /\ p_id p = t /\ p_role p = teacher) ->
  create Policies.current d t (RAnnouncement x)
  = Ok (mkDb (db_users d) (db_rows d ++ [with_default_id (fresh_id d) (RAnnouncement x)])).
Proof.
  intros Ht; apply is_teacher_spec in Ht.
  unfold create, insert.
  cbn -[fresh_id scan_profiles is_teacher].
  unfold pol_check_ok; cbn -[fresh_id scan_profiles is_teacher].
  rewrite scan_current, Ht; cbn -[fresh_id is_teacher].
  unfold unique_violation; simpl row_table; simpl row_id.
  rewrite (pk_fresh d announcements (fresh_id d) eq_refl); reflexivity.
Qed.

(** Under the first migration's policies alone, reading profiles,
    submissions, results or payments and inserting assignments, results or
    payments all fail: the teacher policy on [profiles] reads [profiles]. *)
Theorem initial_policies_recursion (d : db) (r : uuid) :
  (forall t, In t [profiles; assignment_submissions; results; payments] ->
   select Policies.initial d r t = Err (EPolicyRecursion profiles)) /\
  (forall x, In (row_table x) [assignments; results; payments] ->
   create Policies.initial d r x = Err (EPolicyRecursion profiles)).
Proof.
  split.
  - intros t Ht; destruct Ht as [<-|[<-|[<-|[<-|[]]]]]; reflexivity.
  - intros x Hx; destruct x; simpl in Hx;
      repeat (destruct Hx as [Hx|Hx]; [discriminate|]); try contradiction; reflexivity.
Qed.

(** Payments: a delete by an identity without a teacher profile removes
    nothing; a teacher's delete removes every payment its filter selects. *)
Theorem payment_delete_teachers_only (d : db) (r : uuid) (wh : row -> bool) :
  (~ (exists p, In (RProfile p) (db_rows d) /\ p_id p = r /\ p_role p = teacher) ->
   delete Policies.current d r payments wh = Ok d) /\
  ((exists p, In (RProfile p) (db_rows d) /\ p_id p = r /\ p_role p = teacher) ->
   delete Policies.current d r payments wh
   = Ok (mkDb (db_users d)
           (filter (fun x => negb (table_eqb (row_table x) payments && wh x)) (db_rows d)))).
Proof.
  assert (H : forall x, delete_target Policies.current d r payments wh x
                = table_eqb (row_table x) payments && wh x && is_teacher d r
                  && (owns student_id_col r x || (is_teacher d r || is_teacher d r))).
  { intros x; unfold delete_target, pol_using_ok; simpl.
    rewrite scan_current, !orb_false_r; reflexivity. }
  unfold delete.
  replace (recursion_in depth Policies.current [] payments [CDelete; CSelect])
    with (@None table) by reflexivity.
  split.
  - intros Hnt; apply not_teacher_false in Hnt.
    rewrite filter_all_true by (intros x; rewrite H, Hnt, !andb_false_r; reflexivity).
    destruct d; reflexivity.
  - intros Hte; apply is_teacher_spec in Hte.
    do 2 f_equal; apply filter_ext; intros x.
    rewrite H, Hte, !orb_true_r, !andb_true_r; reflexivity.
Qed.

(** Sign-up: an identity whose metadata carries no [role] and whose id has
    no profile yet is stored together with a student profile named after
    its [full_name] metadata, or ["User"] when that key is absent. *)
Theorem signup_default_student (d : db) (NEW : auth_user) :
  meta_get "role"%string (u_raw_user_meta_data NEW) = None ->
  (forall p, In (RProfile p) (db_rows d) -> p_id p <> u_id NEW) ->
  on_auth_user_created d NEW
  = Ok (mkDb (db_users d ++ [NEW])
          (db_rows d ++ [RProfile (mkProfile (u_id NEW) (u_email NEW)
                            (coalesce (meta_get "full_name"%string (u_raw_user_meta_data NEW)) "User"%string)
                            student None None None None)])).
Proof.
  intros Hr Hfresh.
  unfold on_auth_user_created, handle_new_user; rewrite Hr.
  unfold unique_violation; simpl row_table; simpl row_id; simpl db_rows.
  replace (existsb _ (db_rows d)) with false.
  2:{ symmetry; apply Bool.not_true_iff_false; intros E.
      apply existsb_exists in E as (x & Hin & Hx).
      apply andb_true_iff in Hx as [Ht Hx]; apply Nat.eqb_eq in Hx.
      destruct x as [p| | | | |]; try discriminate Ht.
      exact (Hfresh p Hin Hx). }
  simpl fk_violation; unfold user_exists; simpl db_users.
  rewrite existsb_app; simpl; rewrite Nat.eqb_refl, orb_true_r; reflexivity.
Qed.

(** Sign-up: a [role] metadata value that is not a label of [user_role]
    aborts the whole statement, so neither the identity nor a profile is
    stored. *)
Theorem signup_invalid_role_aborts (d : db) (NEW : auth_user) (s : string) :
  meta_get "role"%string (u_raw_user_meta_data NEW) = Some s ->
  user_role_of_text s = None ->
  on_auth_user_created d NEW = Err (EInvalidEnum s).
Proof.
  intros Hr Hs; unfold on_auth_user_created, handle_new_user; rewrite Hr, Hs; reflexivity.
Qed.

(** [handleSubmit] of the student profile page: the update changes the
    profile row [profileId] only when the requester is that profile (a
    teacher cannot edit another profile), and the edited row keeps its id,
    email, role and department. *)
Theorem profile_submit_self_only (d : db) (uid profileId : uuid)
    (full_name roll_number course phone : string) :
  handleProfileSubmit d uid profileId full_name roll_number course phone
  = Ok (mkDb (db_users d)
          (map (fun x => if table_eqb (row_table x) profiles && (row_id x =? profileId)
                            && (profileId =? uid)
                         then set_profile_fields full_name roll_number course phone x
                         else x) (db_rows d))).
Proof.
  unfold handleProfileSubmit, update.
  replace (recursion_in depth Policies.current [] profiles [CUpdate; CSelect])
    with (@None table) by reflexivity.
  cbv zeta.
  assert (Ht : forall x, update_target Policies.current d uid profiles (owns id_col profileId) x
                 = table_eqb (row_table x) profiles && (row_id x =? profileId)
                   && (profileId =? uid)).
  { intros x; unfold update_target, pol_using_ok, owns; simpl; rewrite ?scan_current.
    destruct x as [p| | | | |]; simpl; try reflexivity.
    destruct (p_id p =? profileId) eqn:E; simpl; [|reflexivity].
    apply Nat.eqb_eq in E; subst; destruct (p_id p =? uid); reflexivity. }
  rewrite forallb_ext' with (g := fun _ => true).
  2:{ intros x; rewrite Ht; unfold pol_check_ok, pol_using_ok, owns; simpl.
      destruct x as [p| | | | |]; simpl; try reflexivity.
      destruct (p_id p =? profileId) eqn:E; simpl; [|reflexivity].
      apply Nat.eqb_eq in E; subst; destruct (p_id p =? uid); reflexivity. }
  rewrite forallb_const_true.
  do 2 f_equal; apply map_ext; intros x; rewrite Ht; reflexivity.
Qed.

(** ** Totals and averages of the client *)








Lemma inject_nat_succ (n : nat) :
  (inject_Z (Z.of_nat (S n)) == inject_Z (Z.of_nat n) + 1)%Q.
Proof. rewrite Nat2Z.inj_succ, <- Z.add_1_r, inject_Z_plus; reflexivity. Qed.

Lemma inject_nat_pos (n : nat) : (0 < n)%nat -> (0 < inject_Z (Z.of_nat n))%Q.
Proof. intros H; unfold Qlt; simpl; lia. Qed.

Lemma getPercentage_range (m t : Q) :
  (0 < t)%Q -> (0 <= m <= t)%Q ->
  exists v, getPercentage m t = Some v /\ (0 <= v <= 100)%Q.
Proof.
  intros Ht [Hm Hmt]; unfold getPercentage.
  destruct (Qeq_bool t 0) eqn:E.
  { apply Qeq_bool_iff in E; rewrite E in Ht; destruct (Qlt_irrefl 0 Ht). }
  eexists; split; [reflexivity|]; split.
  - apply Qmult_le_0_compat; [|discriminate].
    apply Qle_shift_div_l; [exact Ht|]; rewrite Qmult_0_l; exact Hm.
  - apply Qle_trans with (1 * 100)%Q; [|discriminate].
    apply Qmult_le_compat_r; [|discriminate].
    apply Qle_shift_div_r; [exact Ht|]; rewrite Qmult_1_l; exact Hmt.
Qed.

Lemma fold_add_opt_none {A : Type} (f : A -> option Q) (l : list A) :
  fold_left (fun acc x => add_opt acc (f x)) l None = None.
Proof. induction l as [|x l IH]; simpl; [reflexivity|exact IH]. Qed.

Lemma fold_add_opt_absorb {A : Type} (f : A -> option Q) (l : list A) (x : A) :
  In x l -> f x = None -> forall acc, fold_left (fun acc x => add_opt acc (f x)) l acc = None.
Proof.
  induction l as [|y l IH]; intros Hin Hx acc; [destruct Hin|].
  destruct Hin as [<-|Hin]; simpl.
  - rewrite Hx; replace (add_opt acc None) with (@None Q) by (destruct acc; reflexivity).
    apply fold_add_opt_none.
  - apply IH; assumption.
Qed.

Lemma fold_add_opt_range {A : Type} (f : A -> option Q) (lo hi : Q) (l : list A) :
  (forall x, In x l -> exists v, f x = Some v /\ (lo <= v <= hi)%Q) ->
  forall s, exists s', fold_left (fun acc x => add_opt acc (f x)) l (Some s) = Some s' /\
    (s + lo * inject_Z (Z.of_nat (List.length l)) <= s'
     <= s + hi * inject_Z (Z.of_nat (List.length l)))%Q.
Proof.
  induction l as [|x l IH]; intros Hl s.
  - exists s; simpl; split; [reflexivity|]; unfold inject_Z; split; ring_simplify;
      apply Qle_refl.
  - destruct (Hl x (or_introl eq_refl)) as (v & Hv & Hlo & Hhi).
    destruct (IH (fun y Hy => Hl y (or_intror Hy)) (s + v)%Q) as (s' & Hs' & Hlo' & Hhi').
    exists s'; cbn [fold_left]; rewrite Hv; split; [exact Hs'|].
    change (List.length (x :: l)) with (S (List.length l)).
    rewrite inject_nat_succ; split.
    + apply Qle_trans with (s + v + lo * inject_Z (Z.of_nat (List.length l)))%Q; [|exact Hlo'].
      setoid_replace (s + lo * (inject_Z (Z.of_nat (List.length l)) + 1))%Q
        with (s + lo + lo * inject_Z (Z.of_nat (List.length l)))%Q by ring.
      apply Qplus_le_compat; [apply Qplus_le_compat; [apply Qle_refl|exact Hlo]|apply Qle_refl].
    + apply Qle_trans with (s + v + hi * inject_Z (Z.of_nat (List.length l)))%Q; [exact Hhi'|].
      setoid_replace (s + hi * (inject_Z (Z.of_nat (List.length l)) + 1))%Q
        with (s + hi + hi * inject_Z (Z.of_nat (List.length l)))%Q by ring.
      apply Qplus_le_compat; [apply Qplus_le_compat; [apply Qle_refl|exact Hhi]|apply Qle_refl].
Qed.


(** Results: for a non-empty list of results whose marks lie between 0 and
    a positive total, the "Average Score" card shows a number between 0 and
    100. *)
Theorem average_score_range (rs : list result) :
  rs <> [] ->
  (forall x, In x rs -> (0 < r_total_marks x)%Q /\
                        (0 <= r_marks_obtained x <= r_total_marks x)%Q) ->
  exists a, average_score rs = Some a /\ (0 <= a <= 100)%Q.
Proof.
  intros Hne Hrs.
  destruct (fold_add_opt_range (fun r => getPercentage (r_marks_obtained r) (r_total_marks r))
              0 100 rs (fun x Hx => getPercentage_range _ _ (proj1 (Hrs x Hx))
                                      (proj2 (Hrs x Hx))) 0%Q)
    as (s & Hs & Hlo & Hhi).
  unfold average_score; rewrite Hs.
  assert (Hn : (0 < List.length rs)%nat) by (destruct rs; [contradiction|simpl; lia]).
  replace (Nat.eqb (List.length rs) 0) with false by (symmetry; apply Nat.eqb_neq; lia).
  eexists; split; [reflexivity|].
  pose proof (inject_nat_pos _ Hn) as Hp.
  rewrite Qplus_0_l, Qmult_0_l in Hlo; rewrite Qplus_0_l in Hhi.
  split.
  - apply Qle_shift_div_l; [exact Hp|]; rewrite Qmult_0_l; exact Hlo.
  - apply Qle_shift_div_r; [exact Hp|exact Hhi].
Qed.

(** Results: one result with a zero total among the listed ones (the
    schema accepts it) makes the average score NaN, whatever the others. *)
Theorem average_score_zero_total (rs : list result) (x : result) :
  In x rs -> (r_total_marks x == 0)%Q -> average_score rs = None.
Proof.
  intros Hin Hz; unfold average_score.
  rewrite (fold_add_opt_absorb _ rs x Hin); [reflexivity|].
  unfold getPercentage; replace (Qeq_bool (r_total_marks x) 0) with true; [reflexivity|].
  symmetry; apply Qeq_bool_iff, Hz.
Qed.


(** Assignments: the insert policy only asks the requester to be a teacher,
    so a teacher's insert is stored with any existing profile as its
    [teacher_id], not only the requester's own id. *)
Theorem teacher_assignment_any_author (d : db) (t : uuid) (a : assignment) :
  (exists p, In (RProfile p) (db_rows d) /\ p_id p = t /\ p_role p = teacher) ->
  (exists p, In (RProfile p) (db_rows d) /\ p_id p = a_teacher_id a) ->
  create Policies.current d t (RAssignment a)
  = Ok (mkDb (db_users d) (db_rows d ++ [with_default_id (fresh_id d) (RAssignment a)])).
Proof.
  intros Ht Hp; apply is_teacher_spec in Ht; apply profile_exists_spec in Hp.
  unfold create, insert.
  cbn -[fresh_id scan_profiles is_teacher profile_exists].
  unfold pol_check_ok; cbn -[fresh_id scan_profiles is_teacher profile_exists].
  rewrite scan_current, Ht; cbn -[fresh_id is_teacher profile_exists].
  unfold unique_violation; simpl row_table; simpl row_id.
  rewrite (pk_fresh d assignments (fresh_id d) eq_refl); simpl.
  rewrite Hp; reflexivity.
Qed.





(** ** Instances of the further properties on the sample data *)

Section FurtherInstances.
Local Open Scope string_scope.
Local Open Scope nat_scope.

Lemma assignment_delete_owner_only_witness :
  exists d', handleDeleteAssignment sample_db 1 10 = Ok d' /\
    (In (RAssignment assignment_A) (db_rows d') <-> 1 <> 1).
Proof. apply (assignment_delete_owner_only sample_db 1 assignment_A); simpl; tauto. Defined.

Lemma submission_update_teachers_only_witness :
  update Policies.current sample_db 2 assignment_submissions (fun _ => true) (fun x => x)
  = Ok sample_db /\
  update Policies.current sample_db 1 assignment_submissions (fun _ => true) (fun x => x)
  = Ok (mkDb (db_users sample_db)
          (map (fun x => if table_eqb (row_table x) assignment_submissions && true
                         then x else x) (db_rows sample_db))).
Proof.
  split.
  - apply (proj1 (submission_update_teachers_only sample_db 2 (fun _ => true) (fun x => x))).
    not_teacher.
  - apply (proj2 (submission_update_teachers_only sample_db 1 (fun _ => true) (fun x => x))).
    exists teacher_T; simpl; auto.
Defined.

Lemma no_delete_policy_tables_witness :
  delete Policies.current sample_db 1 results (fun _ => true) = Ok sample_db.
Proof. apply (no_delete_policy_tables sample_db 1 results); simpl; tauto. Defined.

Lemma submission_insert_other_student_rejected_witness :
  create Policies.current sample_db 1 (RSubmission submission_S)
  = Err (ERlsViolation assignment_submissions).
Proof. apply (submission_insert_other_student_rejected sample_db 1 submission_S); simpl; lia. Defined.

Lemma teacher_announcement_any_author_witness :
  create Policies.current sample_db 1 (RAnnouncement (mkAnnouncement 0 99 "Lab" "Moved"))
  = Ok (mkDb (db_users sample_db)
          (db_rows sample_db
           ++ [with_default_id (fresh_id sample_db) (RAnnouncement (mkAnnouncement 0 99 "Lab" "Moved"))])).
Proof.
  apply (teacher_announcement_any_author sample_db 1); exists teacher_T; simpl; auto.
Defined.

Lemma initial_policies_recursion_witness :
  select Policies.initial sample_db 1 profiles = Err (EPolicyRecursion profiles) /\
  create Policies.initial sample_db 1 (RAssignment assignment_A)
  = Err (EPolicyRecursion profiles).
Proof.
  split.
  - apply (proj1 (initial_policies_recursion sample_db 1)); simpl; tauto.
  - apply (proj2 (initial_policies_recursion sample_db 1)); simpl; tauto.
Defined.

Lemma payment_delete_teachers_only_witness :
  delete Policies.current sample_db 2 payments (owns id_col 20) = Ok sample_db /\
  delete Policies.current sample_db 1 payments (owns id_col 20)
  = Ok (mkDb (db_users sample_db)
          (filter (fun x => negb (table_eqb (row_table x) payments && owns id_col 20 x))
             (db_rows sample_db))).
Proof.
  split.
  - apply (proj1 (payment_delete_teachers_only sample_db 2 (owns id_col 20))); not_teacher.
  - apply (proj2 (payment_delete_teachers_only sample_db 1 (owns id_col 20))).
    exists teacher_T; simpl; auto.
Defined.

Lemma signup_default_student_witness :
  on_auth_user_created sample_db (mkUser 5 "ravi@school.edu" [("full_name", "Ravi")])
  = Ok (mkDb (db_users sample_db ++ [mkUser 5 "ravi@school.edu" [("full_name", "Ravi")]])
          (db_rows sample_db
           ++ [RProfile (mkProfile 5 "ravi@school.edu"
                 (coalesce (meta_get "full_name" [("full_name", "Ravi")]) "User")
                 student None None None None)])).
Proof.
  apply (signup_default_student sample_db (mkUser 5 "ravi@school.edu" [("full_name", "Ravi")]));
    [reflexivity|].
  intros p Hp; simpl in Hp.
  repeat (destruct Hp as [Hp|Hp]; [try discriminate Hp; injection Hp as <-; simpl; lia|]).
  contradiction.
Defined.

Lemma signup_invalid_role_aborts_witness :
  on_auth_user_created sample_db (mkUser 5 "ravi@school.edu" [("role", "admin")])
  = Err (EInvalidEnum "admin").
Proof.
  apply (signup_invalid_role_aborts sample_db (mkUser 5 "ravi@school.edu" [("role", "admin")]));
    reflexivity.
Defined.


Lemma average_score_range_witness :
  exists a, average_score [mkResult 0 2 1 "CT" "Math" 40%Q 50%Q "2025-02-01" None]
            = Some a /\ (0 <= a <= 100)%Q.
Proof.
  apply average_score_range; [discriminate|].
  intros x [<-|[]]; simpl; split; [vm_compute; reflexivity|split; vm_compute; discriminate].
Defined.

Lemma average_score_zero_total_witness :
  average_score [mkResult 0 2 1 "CT" "Math" 40%Q 50%Q "2025-02-01" None; zero_result] = None.
Proof.
  apply (average_score_zero_total _ zero_result); [simpl; auto|reflexivity].
Defined.


Lemma teacher_assignment_any_author_witness :
  create Policies.current sample_db 1 (RAssignment (mkAssignment 0 3 "Lab 2" None None None None None))
  = Ok (mkDb (db_users sample_db)
          (db_rows sample_db
           ++ [with_default_id (fresh_id sample_db)
                 (RAssignment (mkAssignment 0 3 "Lab 2" None None None None None))])).
Proof.
  apply (teacher_assignment_any_author sample_db 1).
  - exists teacher_T; simpl; auto.
  - exists teacher_U; simpl; auto.
Defined.


End FurtherInstances.
